(** * Rebinner and TemporalBinner of threeML/utils/binner.py

    A shallow embedding of the two binning classes of [binner.py].
    Numeric values (the reference sequence, companion sequences, arrival
    times) are rationals [Q]; indices are [nat]; the numpy arrays are lists.
    Python exceptions are the constructors of [error], and every fallible
    method returns a [result]. *)

From Stdlib Require Import List Arith Lia Bool QArith Qabs Qround Sorted.
From Stdlib Require Import Reals Qreals Lqa.
Import ListNotations.

Open Scope nat_scope.

(** ** Exceptions and results *)

Inductive error : Type :=
| NotEnoughData        (** [class NotEnoughData(RuntimeError)] *)
| AssertionError       (** a failing [assert] *)
| IndexError           (** [seq[0]] on an empty sequence *)
| ZeroDivisionError.   (** [np.arange] with a zero step *)

Inductive result (A : Type) : Type :=
| Ok (a : A)
| Err (e : error).
Arguments Ok {A} a.
Arguments Err {A} e.

(** ** numpy helpers *)

(** [np.sum] of a one-dimensional array (0 on an empty one). *)
Definition qsum (l : list Q) : Q := fold_right Qplus 0%Q l.

(** [vector[lo:hi]] for [0 <= lo <= hi]. *)
Definition slice {A} (l : list A) (lo hi : nat) : list A :=
  firstn (hi - lo) (skipn lo l).

(** [vector_a[mask]]: boolean-mask selection. *)
Definition mask_select (x : list Q) (mask : list bool) : list Q :=
  map fst (filter snd (combine x mask)).

(** ** Rebinner *)

Module Rebinner.

(** The local variables of the loop of [Rebinner.__init__]:
    [self._starts], [self._stops], [n] and [bin_open]. *)
Record state : Type := mkState {
  st_starts : list nat;
  st_stops : list nat;
  st_n : Q;
  st_open : bool
}.

Definition init_state : state := mkState [] [] 0%Q false.

(** One iteration of [for index, b in enumerate(vector_to_rebin_on)]. *)
Definition step (min_value_per_bin : Q) (mask : list bool)
    (s : state) (index : nat) (b : Q) : state :=
  if negb (nth index mask false) then
    (* This element is excluded by the mask *)
    if negb (st_open s) then s
    else mkState (st_starts s) (st_stops s ++ [index]) 0%Q false
  else
    (* This element is included by the mask *)
    let s1 := if negb (st_open s)
              then mkState (st_starts s ++ [index]) (st_stops s) 0%Q true
              else s in
    let n := (st_n s1 + b)%Q in
    if Qle_bool min_value_per_bin n
    then mkState (st_starts s1) (st_stops s1 ++ [S index]) 0%Q false
    else mkState (st_starts s1) (st_stops s1) n true.

(** The loop, from position [index] on, over the remaining elements. *)
Fixpoint loop (min_value_per_bin : Q) (mask : list bool)
    (s : state) (index : nat) (v : list Q) : state :=
  match v with
  | [] => s
  | b :: v' => loop min_value_per_bin mask (step min_value_per_bin mask s index b) (S index) v'
  end.

(** A constructed instance. *)
Record t : Type := mk {
  r_mask : list bool;
  r_starts : list nat;
  r_stops : list nat;
  r_min_value_per_bin : Q
}.

(** [Rebinner.__init__(vector_to_rebin_on, min_value_per_bin, mask=None)]. *)
Definition init (vector_to_rebin_on : list Q) (min_value_per_bin : Q)
    (mask : option (list bool)) : result t :=
  let total := qsum vector_to_rebin_on in
  if negb (Qle_bool min_value_per_bin total) then Err NotEnoughData
  else
    let checked :=
      match mask with
      | Some msk => if length msk =? length vector_to_rebin_on then Ok msk else Err AssertionError
      | None => Ok (repeat true (length vector_to_rebin_on))
      end in
    match checked with
    | Err e => Err e
    | Ok msk =>
        let s := loop min_value_per_bin msk init_state 0 vector_to_rebin_on in
        let stops := if st_open s then st_stops s ++ [length vector_to_rebin_on]
                     else st_stops s in
        if length (st_starts s) =? length stops
        then Ok {| r_mask := msk; r_starts := st_starts s; r_stops := stops;
                   r_min_value_per_bin := min_value_per_bin |}
        else Err AssertionError
    end.

(** [n_bins]. *)
Definition n_bins (r : t) : nat := length (r_starts r).

(** The bins as [(low_bound, hi_bound)] pairs: [zip(self._starts, self._stops)]. *)
Definition bins (r : t) : list (nat * nat) := combine (r_starts r) (r_stops r).

(** The per-bin sums of [rebin], before the check. *)
Definition rebinned (r : t) (vector_a : list Q) : list Q :=
  map (fun p => qsum (slice vector_a (fst p) (snd p))) (bins r).

(** [assert abs(np.sum(rebinned_vector) / np.sum(vector_a[self._mask]) - 1) < 1e-4].
    A zero denominator gives [nan] or [inf] in numpy, for which the
    comparison is false. *)
Definition sum_check (rebinned_total masked_total : Q) : bool :=
  if Qeq_bool masked_total 0 then false
  else negb (Qle_bool (1 # 10000) (Qabs (rebinned_total / masked_total - 1))).

(** The body of the loop of [rebin] for one vector. *)
Definition rebin_one (r : t) (vector : list Q) : result (list Q) :=
  if negb (length vector =? length (r_mask r)) then Err AssertionError
  else
    let rebinned_vector := rebinned r vector in
    if sum_check (qsum rebinned_vector) (qsum (mask_select vector (r_mask r)))
    then Ok rebinned_vector
    else Err AssertionError.

(** [rebin( *vectors)]: the vectors in order, the first failure aborts. *)
Fixpoint rebin (r : t) (vectors : list (list Q)) : result (list (list Q)) :=
  match vectors with
  | [] => Ok []
  | vector :: rest =>
      match rebin_one r vector with
      | Err e => Err e
      | Ok rv => match rebin r rest with
                 | Err e => Err e
                 | Ok rvs => Ok (rv :: rvs)
                 end
      end
  end.

(** [rebin_errors( *vectors)]: [np.sqrt(np.sum(vector[low_bound:hi_bound] ** 2))]
    per bin, with [np.sqrt] as the real square root. *)
Definition rebin_errors_one (r : t) (vector : list Q) : result (list R) :=
  if negb (length vector =? length (r_mask r)) then Err AssertionError
  else Ok (map (fun p => sqrt (Q2R (qsum (map (fun a => a * a)%Q
                                            (slice vector (fst p) (snd p))))))
               (bins r)).

Fixpoint rebin_errors (r : t) (vectors : list (list Q)) : result (list (list R)) :=
  match vectors with
  | [] => Ok []
  | vector :: rest =>
      match rebin_errors_one r vector with
      | Err e => Err e
      | Ok rv => match rebin_errors r rest with
                 | Err e => Err e
                 | Ok rvs => Ok (rv :: rvs)
                 end
      end
  end.

(** [seq[i]] on a one-dimensional numpy array: a negative index counts from
    the end, an index out of [-len, len) raises [IndexError]. *)
Definition getitem (l : list Q) (i : Z) : result Q :=
  let n := Z.of_nat (length l) in
  if ((i <? - n) || (n <=? i))%Z then Err IndexError
  else Ok (nth (Z.to_nat (if (i <? 0)%Z then i + n else i)%Z) l 0%Q).

(** The loop of [get_new_start_and_stop]: [new_start[i] = old_start[low_bound]]
    and [new_stop[i] = old_stop[hi_bound-1]] for each bin in order. *)
Fixpoint new_edges (old_start old_stop : list Q) (bs : list (nat * nat))
    : result (list Q * list Q) :=
  match bs with
  | [] => Ok ([], [])
  | (low_bound, hi_bound) :: rest =>
      match getitem old_start (Z.of_nat low_bound) with
      | Err e => Err e
      | Ok a =>
          match getitem old_stop (Z.of_nat hi_bound - 1)%Z with
          | Err e => Err e
          | Ok b =>
              match new_edges old_start old_stop rest with
              | Err e => Err e
              | Ok (ns, nt) => Ok (a :: ns, b :: nt)
              end
          end
      end
  end.

(** [get_new_start_and_stop(old_start, old_stop)]. *)
Definition get_new_start_and_stop (r : t) (old_start old_stop : list Q)
    : result (list Q * list Q) :=
  if (length old_start =? length (r_mask r)) && (length old_stop =? length (r_mask r))
  then new_edges old_start old_stop (bins r)
  else Err AssertionError.

End Rebinner.

(** ** TemporalBinner *)

Module TemporalBinner.

(** An instance: [self._arrival_times] and, once a binning method has run,
    [self._starts] and [self._stops]. *)
Record t : Type := mk {
  arrival_times : list Q;
  starts_stops : option (list Q * list Q)
}.

(** [TemporalBinner.__init__(arrival_times)]: stores the sequence. *)
Definition init (arrival_times : list Q) : result t :=
  Ok {| arrival_times := arrival_times; starts_stops := None |}.

(** The significance evaluator of [threeML.utils.stats_tools.Significance],
    an external collaborator: [Significance(total_counts, bkg).li_and_ma()[0]]
    and [Significance(total_counts, bkg).li_and_ma_equivalent_for_gaussian_background(bkg_error)[0]]. *)
Record significance : Type := mkSignificance {
  li_and_ma : Q -> Q -> Q;
  li_and_ma_equivalent_for_gaussian_background : Q -> Q -> Q -> Q
}.

(** The local variables of the loop of [bin_by_significance]. *)
Record sstate : Type := mkSState {
  ss_starts : list Q;
  ss_stops : list Q;
  total_counts : Q;
  current_start : Q
}.

Section Significance.

Variable sig : significance.
Variable background_getter : Q -> Q -> Q.
Variable background_error_getter : option (Q -> Q -> Q).
Variable sigma_level : Q.
Variable min_counts : Q.

(** The sigma computed for the window [(current_start, time)] with
    [total_counts] events. *)
Definition sigma_of (total_counts current_start time : Q) : Q :=
  let bkg := background_getter current_start time in
  match background_error_getter with
  | Some err_getter =>
      li_and_ma_equivalent_for_gaussian_background sig total_counts bkg
        (err_getter current_start time)
  | None => li_and_ma sig total_counts bkg
  end.

(** One iteration of [for i, time in enumerate(self._arrival_times)]
    (the progress bar is observational and left out). *)
Definition sig_step (s : sstate) (time : Q) : sstate :=
  let tc := (total_counts s + 1)%Q in
  if negb (Qle_bool min_counts tc) then
    mkSState (ss_starts s) (ss_stops s) tc (current_start s)
  else
    let sigma := sigma_of tc (current_start s) time in
    if Qle_bool sigma_level sigma
    then mkSState (ss_starts s ++ [current_start s]) (ss_stops s ++ [time]) 0%Q time
    else mkSState (ss_starts s) (ss_stops s) tc (current_start s).

Definition sig_loop (s : sstate) (times : list Q) : sstate :=
  fold_left sig_step times s.

(** [bin_by_significance(background_getter, background_error_getter, sigma_level, min_counts)]. *)
Definition bin_by_significance (tb : t) : result t :=
  match arrival_times tb with
  | [] => Err IndexError
  | t0 :: _ =>
      let s := sig_loop (mkSState [] [] 0%Q t0) (arrival_times tb) in
      Ok {| arrival_times := arrival_times tb;
            starts_stops := Some (ss_starts s, ss_stops s) |}
  end.

(** The test of the loop body passes at [time]: [total_counts >= min_counts]
    after the increment, and [sigma >= sigma_level]. *)
Definition closes (s : sstate) (time : Q) : bool :=
  let tc := (total_counts s + 1)%Q in
  Qle_bool min_counts tc && Qle_bool sigma_level (sigma_of tc (current_start s) time).

(** The test passes at none of the times [times], scanned from [s]. *)
Fixpoint no_close (s : sstate) (times : list Q) : bool :=
  match times with
  | [] => true
  | time :: rest => negb (closes s time) && no_close (sig_step s time) rest
  end.

End Significance.

(** [np.arange(start, stop, step)]: [ceil((stop - start) / step)] values
    (none when that is not positive), the [i]-th being [start + i * step]. *)
Definition arange (start stop step : Q) : result (list Q) :=
  if Qeq_bool step 0 then Err ZeroDivisionError
  else
    let n := Z.to_nat (Qceiling ((stop - start) / step)) in
    Ok (map (fun i => start + inject_Z (Z.of_nat i) * step)%Q (seq 0 n)).

(** [bin_by_constanst(dt)]. *)
Definition bin_by_constanst (tb : t) (dt : Q) : result t :=
  match arrival_times tb with
  | [] => Err IndexError
  | t0 :: _ =>
      match arange t0 (last (arrival_times tb) t0) dt with
      | Err e => Err e
      | Ok tmp => Ok {| arrival_times := arrival_times tb;
                        starts_stops := Some (tmp, map (fun a => a + dt)%Q tmp) |}
      end
  end.

End TemporalBinner.

(** ** Auxiliary definitions for the proofs *)

(** The masked total [np.sum(x[mask])] of the first [k] positions, as a
    running sum. *)
Fixpoint msum (x : list Q) (mask : list bool) (k : nat) : Q :=
  match k with
  | 0 => 0%Q
  | S k' => (msum x mask k' + (if nth k' mask false then nth k' x 0%Q else 0%Q))%Q
  end.

(** The sum of [x] over the bin [p = (low_bound, hi_bound)]. *)
Definition bsum (x : list Q) (p : nat * nat) : Q := qsum (slice x (fst p) (snd p)).

(** Bins [p] and [q] in this order do not overlap. *)
Definition before (p q : nat * nat) : Prop := snd p <= fst q.

(** The mask used by the constructor. *)
Definition effective_mask (mask : option (list bool)) (n : nat) : list bool :=
  match mask with
  | Some msk => msk
  | None => repeat true n
  end.

(** [bins] is a well-formed binning of the masked positions below [b] of the
    reference sequence [v] with threshold [m]. *)
Record Good (v : list Q) (m : Q) (mask : list bool) (bins : list (nat * nat)) (b : nat) : Prop := {
  g_sorted : StronglySorted before bins;
  g_range : Forall (fun p => fst p < snd p <= b) bins;
  g_mask : Forall (fun p => forall j, fst p <= j < snd p -> nth j mask false = true) bins;
  g_cover : forall j, j < b -> nth j mask false = true ->
            Exists (fun p => fst p <= j < snd p) bins;
  g_min : Forall (fun p => (m <= bsum v p)%Q
                           \/ (snd p < length v /\ nth (snd p) mask false = false)
                           \/ snd p = length v) bins;
  g_sum : forall x, length x = length v -> (qsum (map (bsum x) bins) == msum x mask b)%Q
}.

(** The loop invariant of [Rebinner.__init__] after the first [k] elements. *)
Definition Inv (v : list Q) (m : Q) (mask : list bool) (k : nat) (s : Rebinner.state) : Prop :=
  k <= length v /\
  match Rebinner.st_open s with
  | false => exists bins, Rebinner.st_starts s = map fst bins
                          /\ Rebinner.st_stops s = map snd bins /\ Good v m mask bins k
  | true => exists bins st, Rebinner.st_starts s = map fst bins ++ [st]
                          /\ Rebinner.st_stops s = map snd bins /\ Good v m mask bins st
                          /\ st < k /\ (forall j, st <= j < k -> nth j mask false = true)
                          /\ (Rebinner.st_n s == qsum (slice v st k))%Q
  end.

(** ** General lemmas on lists and sums *)

Lemma firstn_snoc {A} (l : list A) k d :
  k < length l -> firstn (S k) l = firstn k l ++ [nth k l d].
Proof.
  revert k; induction l as [|a l IH]; intros [|k] H; simpl in *; try lia.
  - reflexivity.
  - rewrite (IH k) by lia. reflexivity.
Qed.

Lemma nth_skipn_add {A} (l : list A) lo k d : nth k (skipn lo l) d = nth (lo + k) l d.
Proof.
  revert lo; induction l as [|a l IH]; intros [|lo]; simpl; auto.
  destruct k; reflexivity.
Qed.

Lemma slice_snoc {A} (l : list A) lo hi d :
  lo <= hi -> hi < length l -> slice l lo (S hi) = slice l lo hi ++ [nth hi l d].
Proof.
  intros Hle Hlt. unfold slice.
  replace (S hi - lo) with (S (hi - lo)) by lia.
  rewrite (firstn_snoc _ _ d).
  - rewrite nth_skipn_add. replace (lo + (hi - lo)) with hi by lia. reflexivity.
  - rewrite length_skipn. lia.
Qed.

Lemma slice_empty {A} (l : list A) k : slice l k k = [].
Proof. unfold slice. rewrite Nat.sub_diag. reflexivity. Qed.

Lemma qsum_app a b : (qsum (a ++ b) == qsum a + qsum b)%Q.
Proof.
  induction a as [|x a IH]; simpl.
  - ring.
  - rewrite IH. ring.
Qed.

Lemma msum_slice x mask lo hi :
  lo <= hi -> hi <= length x ->
  (forall j, lo <= j < hi -> nth j mask false = true) ->
  (msum x mask hi == msum x mask lo + qsum (slice x lo hi))%Q.
Proof.
  induction hi as [|hi IH]; intros Hle Hlen Hm.
  - assert (lo = 0) by lia. subst. simpl. ring.
  - destruct (Nat.eq_dec lo (S hi)) as [->|Hne].
    + rewrite slice_empty. simpl. ring.
    + rewrite (slice_snoc x lo hi 0%Q) by lia. rewrite qsum_app.
      cbn [msum]. rewrite IH by (intros; try apply Hm; lia).
      rewrite (Hm hi) by lia. simpl. ring.
Qed.

Lemma combine_snoc {A B} (a : list A) (b : list B) x y :
  length a = length b -> combine (a ++ [x]) (b ++ [y]) = combine a b ++ [(x, y)].
Proof.
  revert b; induction a as [|p a IH]; intros [|q b] H; simpl in *; try discriminate.
  - reflexivity.
  - rewrite IH by lia. reflexivity.
Qed.

Lemma mask_select_msum x mask :
  length mask = length x -> (qsum (mask_select x mask) == msum x mask (length x))%Q.
Proof.
  intros Hl.
  assert (H : forall k, k <= length x ->
            (qsum (mask_select (firstn k x) (firstn k mask)) == msum x mask k)%Q).
  { induction k as [|k IH]; intros Hk.
    - reflexivity.
    - rewrite (firstn_snoc x k 0%Q), (firstn_snoc mask k false) by lia.
      unfold mask_select in *.
      rewrite combine_snoc by (rewrite !length_firstn; lia).
      rewrite filter_app, map_app, qsum_app, IH by lia.
      cbn [msum]. destruct (nth k mask false); simpl; ring. }
  rewrite <- H by lia. rewrite !firstn_all2 by lia. reflexivity.
Qed.

Lemma StronglySorted_snoc {A} (R : A -> A -> Prop) l x :
  StronglySorted R l -> Forall (fun y => R y x) l -> StronglySorted R (l ++ [x]).
Proof.
  induction l as [|a l IH]; intros Hs Hf; simpl.
  - repeat constructor.
  - inversion Hs; subst. inversion Hf; subst. constructor.
    + apply IH; auto.
    + apply Forall_app. split; auto.
Qed.

Lemma StronglySorted_nth {A} (R : A -> A -> Prop) l d i j :
  StronglySorted R l -> i < j < length l -> R (nth i l d) (nth j l d).
Proof.
  revert i j; induction l as [|a l IH]; intros i j Hs Hij; simpl in *; [lia|].
  inversion Hs as [|? ? Hs' Hf]; subst.
  destruct i, j; try lia.
  - rewrite Forall_nth in Hf. apply Hf. lia.
  - apply IH; auto; lia.
Qed.

Lemma skipn_cons_nth {A} (l : list A) k b r d :
  skipn k l = b :: r -> nth k l d = b /\ skipn (S k) l = r.
Proof.
  revert k; induction l as [|a l IH]; intros [|k] H; simpl in *; try discriminate.
  - injection H; intros; subst; auto.
  - apply IH. exact H.
Qed.

(** ** The construction loop of [Rebinner] *)

Section Construction.

Variable v : list Q.
Variable m : Q.
Variable mask : list bool.

Lemma Good_nil : Good v m mask [] 0.
Proof.
  constructor; auto.
  - constructor.
  - intros j Hj. lia.
  - intros x _. reflexivity.
Qed.

(** A masked-out position outside every bin. *)
Lemma Good_skip bins k :
  Good v m mask bins k -> nth k mask false = false -> Good v m mask bins (S k).
Proof.
  intros G Hk. destruct G as [Gs Gr Gm Gc Gmin Gsum]. constructor; auto.
  - eapply Forall_impl; [|exact Gr]. simpl. intros; lia.
  - intros j Hj Hmj. destruct (Nat.eq_dec j k) as [->|Hne].
    + congruence.
    + apply Gc; auto. lia.
  - intros x Hx. cbn [msum]. rewrite Hk, Gsum by exact Hx. ring.
Qed.

(** Closing the bin [(st, e)]. *)
Lemma Good_snoc bins st e :
  Good v m mask bins st -> st < e -> e <= length v ->
  (forall j, st <= j < e -> nth j mask false = true) ->
  ((m <= bsum v (st, e))%Q \/ (e < length v /\ nth e mask false = false) \/ e = length v) ->
  Good v m mask (bins ++ [(st, e)]) e.
Proof.
  intros G Hse He Hm Hmin. destruct G as [Gs Gr Gm Gc Gmin Gsum]. constructor.
  - apply StronglySorted_snoc; auto.
    eapply Forall_impl; [|exact Gr]. unfold before. simpl. intros; lia.
  - apply Forall_app. split.
    + eapply Forall_impl; [|exact Gr]. simpl. intros; lia.
    + repeat constructor; simpl; lia.
  - apply Forall_app. split; auto.
  - intros j Hj Hmj. apply Exists_app. destruct (Nat.lt_ge_cases j st).
    + left. apply Gc; auto.
    + right. constructor. simpl. lia.
  - apply Forall_app. split; auto.
  - intros x Hx. rewrite map_app, qsum_app, Gsum by exact Hx.
    unfold bsum. simpl. rewrite (msum_slice x mask st e) by (auto; lia). ring.
Qed.

Lemma Inv_init : Inv v m mask 0 Rebinner.init_state.
Proof.
  split; [lia|]. simpl. exists []. split; [reflexivity|]. split; [reflexivity|]. apply Good_nil.
Qed.

Lemma slice_one (k : nat) : k < length v -> slice v k (S k) = [nth k v 0%Q].
Proof.
  intros H. rewrite (slice_snoc v k k 0%Q) by lia. rewrite slice_empty. reflexivity.
Qed.

Lemma Inv_step k s :
  Inv v m mask k s -> k < length v ->
  Inv v m mask (S k) (Rebinner.step m mask s k (nth k v 0%Q)).
Proof.
  intros [Hk HI] Hlt. split; [lia|].
  destruct s as [starts stops n op]; unfold Rebinner.step;
    cbn [Rebinner.st_open Rebinner.st_starts Rebinner.st_stops Rebinner.st_n] in *.
  destruct (nth k mask false) eqn:Hmk; cbn [negb].
  - (* included by the mask *)
    destruct op; cbn [negb Rebinner.st_open Rebinner.st_starts Rebinner.st_stops Rebinner.st_n].
    + destruct HI as (bins & st & -> & -> & G & Hst & Hm & Hn).
      assert (Hsl : (qsum (slice v st (S k)) == n + nth k v 0%Q)%Q).
      { rewrite (slice_snoc v st k 0%Q) by lia. rewrite qsum_app, <- Hn. simpl. ring. }
      assert (Hm' : forall j, st <= j < S k -> nth j mask false = true).
      { intros j Hj. destruct (Nat.eq_dec j k) as [->|]; auto. apply Hm. lia. }
      destruct (Qle_bool m (n + nth k v 0%Q)) eqn:Hq; cbn [Rebinner.st_open].
      * exists (bins ++ [(st, S k)]). rewrite !map_app. cbn [fst snd map].
        split; [reflexivity|]. split; [reflexivity|].
        apply Good_snoc; auto; try lia.
        left. unfold bsum. cbn [fst snd]. rewrite Hsl. apply Qle_bool_iff. exact Hq.
      * exists bins, st. do 5 (split; [auto; try lia|]). rewrite Hsl. reflexivity.
    + destruct HI as (bins & -> & -> & G).
      assert (Hsl : (qsum (slice v k (S k)) == 0 + nth k v 0%Q)%Q).
      { rewrite slice_one by lia. simpl. ring. }
      assert (Hm' : forall j, k <= j < S k -> nth j mask false = true).
      { intros j Hj. replace j with k by lia. exact Hmk. }
      destruct (Qle_bool m (0 + nth k v 0%Q)) eqn:Hq; cbn [Rebinner.st_open].
      * exists (bins ++ [(k, S k)]). rewrite !map_app. cbn [fst snd map].
        split; [reflexivity|]. split; [reflexivity|].
        apply Good_snoc; auto; try lia.
        left. unfold bsum. cbn [fst snd]. rewrite Hsl. apply Qle_bool_iff. exact Hq.
      * exists bins, k. do 5 (split; [auto; try lia|]). rewrite Hsl. reflexivity.
  - (* excluded by the mask *)
    destruct op; cbn [negb Rebinner.st_open Rebinner.st_starts Rebinner.st_stops].
    + destruct HI as (bins & st & -> & -> & G & Hst & Hm & Hn).
      exists (bins ++ [(st, k)]). rewrite !map_app. cbn [fst snd map].
      split; [reflexivity|]. split; [reflexivity|].
      apply Good_skip; auto. apply Good_snoc; auto; lia.
    + destruct HI as (bins & -> & -> & G).
      exists bins. split; [reflexivity|]. split; [reflexivity|]. apply Good_skip; auto.
Qed.

Lemma Inv_loop rest : forall k s,
  skipn k v = rest -> Inv v m mask k s ->
  Inv v m mask (length v) (Rebinner.loop m mask s k rest).
Proof.
  induction rest as [|b rest IH]; intros k s Hsk HI; simpl.
  - assert (k = length v).
    { destruct HI as [Hk _]. assert (length (skipn k v) = 0) by (rewrite Hsk; reflexivity).
      rewrite length_skipn in *. lia. }
    subst. exact HI.
  - destruct (skipn_cons_nth v k b rest 0%Q Hsk) as [Hb Hsk'].
    assert (Hlt : k < length v).
    { assert (length (skipn k v) = S (length rest)) by (rewrite Hsk; reflexivity).
      rewrite length_skipn in *. lia. }
    apply IH; auto. rewrite <- Hb. apply Inv_step; auto.
Qed.

(** After the loop and the closing of a bin left open. *)
Lemma construction_good :
  let s := Rebinner.loop m mask Rebinner.init_state 0 v in
  let stops := if Rebinner.st_open s then Rebinner.st_stops s ++ [length v]
               else Rebinner.st_stops s in
  exists bins, Rebinner.st_starts s = map fst bins /\ stops = map snd bins
               /\ Good v m mask bins (length v).
Proof.
  intros s stops.
  assert (HI : Inv v m mask (length v) s).
  { apply Inv_loop; [reflexivity|]. apply Inv_init. }
  destruct HI as [_ HI]. subst stops.
  destruct (Rebinner.st_open s).
  - destruct HI as (bins & st & Hs & Ht & G & Hst & Hm & Hn).
    exists (bins ++ [(st, length v)]). rewrite !map_app, Hs, Ht. cbn [fst snd map].
    split; [reflexivity|]. split; [reflexivity|].
    apply Good_snoc; auto; lia.
  - exact HI.
Qed.

End Construction.

(** ** From the loop to [Rebinner.init] *)

Lemma combine_map_fst_snd {A B} (l : list (A * B)) : combine (map fst l) (map snd l) = l.
Proof. induction l as [|[a b] l IH]; simpl; [reflexivity|]. rewrite IH. reflexivity. Qed.

Lemma nth_map_fst (l : list (nat * nat)) i : nth i (map fst l) 0 = fst (nth i l (0, 0)).
Proof. revert i; induction l as [|p l IH]; intros [|i]; simpl; auto. Qed.

Lemma nth_map_snd (l : list (nat * nat)) i : nth i (map snd l) 0 = snd (nth i l (0, 0)).
Proof. revert i; induction l as [|p l IH]; intros [|i]; simpl; auto. Qed.

Lemma init_ok v m mask r :
  Rebinner.init v m mask = Ok r ->
  (m <= qsum v)%Q /\ Rebinner.r_mask r = effective_mask mask (length v)
  /\ length (Rebinner.r_mask r) = length v
  /\ exists bins, Rebinner.r_starts r = map fst bins /\ Rebinner.r_stops r = map snd bins
                  /\ Rebinner.bins r = bins /\ Rebinner.n_bins r = length bins
                  /\ Good v m (Rebinner.r_mask r) bins (length v).
Proof.
  unfold Rebinner.init.
  destruct (Qle_bool m (qsum v)) eqn:Ht; cbn [negb]; [|discriminate].
  apply Qle_bool_iff in Ht.
  assert (Hmask : exists msk, (match mask with
                   | Some msk => if length msk =? length v then Ok msk else Err AssertionError
                   | None => Ok (repeat true (length v))
                   end = Ok msk /\ msk = effective_mask mask (length v) /\ length msk = length v)
                  \/ (exists e, match mask with
                   | Some msk => if length msk =? length v then Ok msk else Err AssertionError
                   | None => Ok (repeat true (length v))
                   end = Err e)).
  { destruct mask as [msk|].
    - destruct (length msk =? length v) eqn:Hl.
      + exists msk. left. apply Nat.eqb_eq in Hl. auto.
      + exists msk. right. eauto.
    - exists (repeat true (length v)). left. rewrite repeat_length. auto. }
  destruct Hmask as [msk [(-> & Hmsk & Hlen) | (e & ->)]]; [|discriminate].
  pose proof (construction_good v m msk) as Hc. cbv zeta in Hc.
  destruct Hc as (bins & Hs & Ht' & G).
  destruct (_ =? _); [|discriminate].
  intros H. injection H as <-. cbn.
  split; [exact Ht|]. split; [exact Hmsk|]. split; [exact Hlen|].
  exists bins. rewrite Hs, Ht'. split; [reflexivity|]. split; [reflexivity|].
  split; [apply combine_map_fst_snd|]. split; [apply length_map|]. exact G.
Qed.

(** The rebinned total equals the masked total. *)
Lemma rebinned_total v m mask r x :
  Rebinner.init v m mask = Ok r -> length x = length v ->
  (qsum (Rebinner.rebinned r x) == qsum (mask_select x (Rebinner.r_mask r)))%Q.
Proof.
  intros Hi Hx. destruct (init_ok v m mask r Hi) as (_ & _ & Hl & bins & _ & _ & Hb & _ & G).
  unfold Rebinner.rebinned. rewrite Hb.
  change (fun p : nat * nat => qsum (slice x (fst p) (snd p))) with (bsum x).
  rewrite (g_sum _ _ _ _ _ G x Hx), mask_select_msum by lia.
  rewrite Hx. reflexivity.
Qed.

Lemma sum_check_equal s t :
  ~ (t == 0)%Q -> (s == t)%Q -> Rebinner.sum_check s t = true.
Proof.
  intros Ht Hst. unfold Rebinner.sum_check.
  destruct (Qeq_bool t 0) eqn:E.
  - apply Qeq_bool_iff in E. contradiction.
  - destruct (Qle_bool (1 # 10000) (Qabs (s / t - 1))) eqn:E2; [|reflexivity].
    apply Qle_bool_iff in E2. rewrite Hst in E2.
    assert (H0 : (t / t - 1 == 0)%Q) by (field; exact Ht).
    rewrite H0 in E2. vm_compute in E2. exfalso. apply E2. reflexivity.
Qed.

Lemma sum_check_zero s t : (t == 0)%Q -> Rebinner.sum_check s t = false.
Proof.
  intros Ht. unfold Rebinner.sum_check.
  replace (Qeq_bool t 0) with true by (symmetry; apply Qeq_bool_iff; exact Ht).
  reflexivity.
Qed.

(** ** Claims on [Rebinner] *)

(** C1: for a successful construction and a companion sequence [x] of the
    reference length, the per-bin sums of [rebin] add up to the sum of [x]
    over the masked-in positions (exactly, so within the 1e-4 tolerance);
    whatever [rebin] returns for [x] satisfies this, and it does return
    these sums whenever the masked total is not zero. *)
Theorem rebin_sum_preserved v m mask r x :
  Rebinner.init v m mask = Ok r -> length x = length v ->
  (qsum (Rebinner.rebinned r x) == qsum (mask_select x (effective_mask mask (length v))))%Q
  /\ (forall out, Rebinner.rebin r [x] = Ok [out] ->
        (qsum out == qsum (mask_select x (effective_mask mask (length v))))%Q)
  /\ (~ (qsum (mask_select x (effective_mask mask (length v))) == 0)%Q ->
        Rebinner.rebin r [x] = Ok [Rebinner.rebinned r x]).
Proof.
  intros Hi Hx. pose proof (rebinned_total v m mask r x Hi Hx) as Hs.
  destruct (init_ok v m mask r Hi) as (_ & Hmsk & Hl & _).
  rewrite <- Hmsk.
  assert (Hlen : (length x =? length (Rebinner.r_mask r)) = true)
    by (apply Nat.eqb_eq; lia).
  split; [exact Hs|]. split.
  - intros out. cbn [Rebinner.rebin]. unfold Rebinner.rebin_one. rewrite Hlen. cbn [negb].
    destruct (Rebinner.sum_check _ _); [|discriminate].
    intros H. injection H as <-. exact Hs.
  - intros Hnz. cbn [Rebinner.rebin]. unfold Rebinner.rebin_one. rewrite Hlen. cbn [negb].
    rewrite sum_check_equal by assumption. reflexivity.
Qed.

(** C2 (as corrected): every bin either accumulates at least
    [min_value_per_bin] over the reference sequence, or ends right before a
    masked-out position (it was closed by a mask gap), or is the last bin. *)
Theorem bins_min_value v m mask r :
  Rebinner.init v m mask = Ok r ->
  forall i, i < Rebinner.n_bins r ->
  let s := nth i (Rebinner.r_starts r) 0 in
  let e := nth i (Rebinner.r_stops r) 0 in
  (m <= qsum (slice v s e))%Q
  \/ (e < length v /\ nth e (effective_mask mask (length v)) false = false)
  \/ S i = Rebinner.n_bins r.
Proof.
  intros Hi i Hlt s e.
  destruct (init_ok v m mask r Hi) as (_ & Hmsk & _ & bins & Hs & He & _ & Hnb & G).
  subst s e. rewrite Hs, He, nth_map_fst, nth_map_snd, <- Hmsk. rewrite Hnb in *.
  pose proof (g_min _ _ _ _ _ G) as Gmin. rewrite Forall_nth in Gmin.
  destruct (Gmin i (0, 0) Hlt) as [H|[H|H]]; [left; exact H|right; left; exact H|].
  right; right.
  destruct (Nat.eq_dec (S i) (length bins)) as [|Hne]; [assumption|exfalso].
  pose proof (StronglySorted_nth _ bins (0, 0) i (S i) (g_sorted _ _ _ _ _ G)) as Hso.
  pose proof (g_range _ _ _ _ _ G) as Gr. rewrite Forall_nth in Gr.
  specialize (Gr (S i) (0, 0)). unfold before in Hso.
  assert (S i < length bins) by lia.
  specialize (Hso ltac:(lia)). specialize (Gr ltac:(lia)). lia.
Qed.

(** C2, counterexample: with reference [[1;1;1]], threshold 2 and mask
    [[T;F;T]] the first of the two bins is [[0,1)], it holds 1 < 2 and it is
    not the last bin. *)
Lemma bins_min_value_counterexample :
  exists r, Rebinner.init [1;1;1]%Q 2 (Some [true; false; true]) = Ok r
            /\ Rebinner.n_bins r = 2
            /\ nth 0 (Rebinner.r_starts r) 0 = 0 /\ nth 0 (Rebinner.r_stops r) 0 = 1
            /\ (qsum (slice [1;1;1]%Q 0 1) < 2)%Q.
Proof.
  eexists. split; [vm_compute; reflexivity|]. vm_compute. repeat split; reflexivity.
Qed.

(** C3: the bins of a successful construction are non-empty, ordered and
    disjoint, contain only masked-in positions, and every masked-in
    position lies in exactly one bin. *)
Theorem bins_partition v m mask r :
  Rebinner.init v m mask = Ok r ->
  let starts := Rebinner.r_starts r in
  let stops := Rebinner.r_stops r in
  let msk := effective_mask mask (length v) in
  let nb := Rebinner.n_bins r in
  length stops = nb
  /\ (forall i, i < nb -> nth i starts 0 < nth i stops 0 <= length v)
  /\ (forall i, S i < nb -> nth i stops 0 <= nth (S i) starts 0)
  /\ (forall i j, i < nb -> nth i starts 0 <= j < nth i stops 0 -> nth j msk false = true)
  /\ (forall j, j < length v -> nth j msk false = true ->
        exists i, i < nb /\ nth i starts 0 <= j < nth i stops 0)
  /\ (forall i1 i2 j, i1 < nb -> i2 < nb ->
        nth i1 starts 0 <= j < nth i1 stops 0 ->
        nth i2 starts 0 <= j < nth i2 stops 0 -> i1 = i2).
Proof.
  intros Hi starts stops msk nb.
  destruct (init_ok v m mask r Hi) as (_ & Hmsk & _ & bins & Hs & He & _ & Hnb & G).
  subst starts stops msk nb. rewrite <- Hmsk, Hnb, Hs, He.
  destruct G as [Gs Gr Gm Gc _ _]. rewrite Forall_nth in Gr, Gm.
  split; [apply length_map|].
  split; [intros i Hlt; rewrite nth_map_fst, nth_map_snd; apply Gr; exact Hlt|].
  split.
  { intros i Hlt. rewrite nth_map_fst, nth_map_snd.
    apply (StronglySorted_nth _ _ _ _ _ Gs). lia. }
  split.
  { intros i j Hlt Hj. rewrite nth_map_fst, nth_map_snd in Hj. exact (Gm i (0, 0) Hlt j Hj). }
  split.
  { intros j Hj Hmj. destruct (proj1 (Exists_exists _ _) (Gc j Hj Hmj)) as (p & Hin & Hp).
    destruct (In_nth bins p (0, 0) Hin) as (i & Hlt & Hnth).
    exists i. rewrite nth_map_fst, nth_map_snd, Hnth. auto. }
  intros i1 i2 j H1 H2 Hj1 Hj2. rewrite nth_map_fst, nth_map_snd in Hj1, Hj2.
  destruct (Nat.lt_trichotomy i1 i2) as [Hlt|[Heq|Hlt]]; auto; exfalso.
  - pose proof (StronglySorted_nth _ _ (0, 0) i1 i2 Gs ltac:(lia)) as Hb.
    unfold before in Hb. lia.
  - pose proof (StronglySorted_nth _ _ (0, 0) i2 i1 Gs ltac:(lia)) as Hb.
    unfold before in Hb. lia.
Qed.

(** C4: the two worked examples of the spec. *)
Theorem rebinner_examples :
  (exists r, Rebinner.init [1;1;1;1;1;1]%Q 2 None = Ok r
             /\ Rebinner.r_starts r = [0; 2; 4] /\ Rebinner.r_stops r = [2; 4; 6]
             /\ Rebinner.n_bins r = 3)
  /\ (exists r, Rebinner.init [1;1;1;1;1;1]%Q 2 (Some [true; true; false; true; true; true]) = Ok r
             /\ Rebinner.r_starts r = [0; 3; 5] /\ Rebinner.r_stops r = [2; 5; 6]
             /\ (qsum (slice [1;1;1;1;1;1]%Q 5 6) < 2)%Q).
Proof.
  split; eexists; (split; [vm_compute; reflexivity|]); vm_compute; repeat split; reflexivity.
Qed.

(** C5: construction raises [NotEnoughData] exactly when the reference total
    is below [min_value_per_bin], whatever the mask (also one of the wrong
    length, so the check comes before the mask validation). *)
Theorem init_not_enough_data v m mask :
  Rebinner.init v m mask = Err NotEnoughData <-> (qsum v < m)%Q.
Proof.
  unfold Rebinner.init.
  destruct (Qle_bool m (qsum v)) eqn:Ht; cbn [negb].
  - apply Qle_bool_iff in Ht. split.
    + destruct mask as [msk|]; [destruct (length msk =? length v)|];
        try discriminate; destruct (_ =? _); discriminate.
    + intros H. exfalso. apply (Qlt_not_le _ _ H Ht).
  - split; [|reflexivity]. intros _. apply Qnot_le_lt. intros H.
    apply Qle_bool_iff in H. congruence.
Qed.

(** C6: [rebin_errors] never fails on a vector of the reference length and
    returns, per bin, the square root of the sum of squares over the bin. *)
Theorem rebin_errors_quadrature v m mask r x :
  Rebinner.init v m mask = Ok r -> length x = length v ->
  exists out, Rebinner.rebin_errors r [x] = Ok [out]
    /\ length out = Rebinner.n_bins r
    /\ forall i, i < Rebinner.n_bins r ->
         nth i out 0%R = sqrt (Q2R (qsum (map (fun a => a * a)%Q
                              (slice x (nth i (Rebinner.r_starts r) 0)
                                       (nth i (Rebinner.r_stops r) 0))))).
Proof.
  intros Hi Hx.
  destruct (init_ok v m mask r Hi) as (_ & _ & Hl & bins & Hs & He & Hb & Hnb & _).
  assert (Hlen : (length x =? length (Rebinner.r_mask r)) = true)
    by (apply Nat.eqb_eq; lia).
  eexists. cbn [Rebinner.rebin_errors]. unfold Rebinner.rebin_errors_one.
  rewrite Hlen. cbn [negb]. split; [reflexivity|]. rewrite Hb, Hnb.
  split; [apply length_map|].
  intros i Hlt. rewrite Hs, He, nth_map_fst, nth_map_snd.
  set (f := fun p : nat * nat => sqrt (Q2R (qsum (map (fun a => a * a)%Q
                                   (slice x (fst p) (snd p)))))).
  rewrite (nth_indep (map f bins) 0%R (f (0, 0))) by (rewrite length_map; exact Hlt).
  rewrite map_nth. reflexivity.
Qed.

(** C10: a companion vector whose masked total is zero makes [rebin] fail:
    the check divides by that total. *)
Theorem rebin_zero_masked_total v m mask r x :
  Rebinner.init v m mask = Ok r -> length x = length v ->
  (qsum (mask_select x (effective_mask mask (length v))) == 0)%Q ->
  Rebinner.rebin r [x] = Err AssertionError.
Proof.
  intros Hi Hx Hz.
  destruct (init_ok v m mask r Hi) as (_ & Hmsk & Hl & _).
  rewrite <- Hmsk in Hz.
  cbn [Rebinner.rebin]. unfold Rebinner.rebin_one.
  replace (length x =? length (Rebinner.r_mask r)) with true by (symmetry; apply Nat.eqb_eq; lia).
  cbn [negb]. rewrite sum_check_zero by exact Hz. reflexivity.
Qed.

(** ** Claims on [TemporalBinner] *)

(** C7, counterexample: construction from the empty sequence succeeds. *)
Lemma temporal_init_empty_counterexample :
  TemporalBinner.init [] = Ok (TemporalBinner.mk [] None).
Proof. reflexivity. Qed.

(** C7 (as corrected): construction stores any sequence without validation,
    the empty one included; on an empty sequence both binning methods fail
    with [IndexError] when they read the first arrival time. *)
Theorem temporal_init_no_validation :
  (forall ts, TemporalBinner.init ts = Ok (TemporalBinner.mk ts None))
  /\ (forall sig bg bge sl mc,
        TemporalBinner.bin_by_significance sig bg bge sl mc (TemporalBinner.mk [] None)
        = Err IndexError)
  /\ (forall dt, TemporalBinner.bin_by_constanst (TemporalBinner.mk [] None) dt = Err IndexError).
Proof. repeat split. Qed.

Lemma sig_loop_no_close sig bg bge sl mc : forall times s,
  TemporalBinner.no_close sig bg bge sl mc s times = true ->
  TemporalBinner.ss_starts (TemporalBinner.sig_loop sig bg bge sl mc s times) = TemporalBinner.ss_starts s
  /\ TemporalBinner.ss_stops (TemporalBinner.sig_loop sig bg bge sl mc s times) = TemporalBinner.ss_stops s.
Proof.
  induction times as [|time rest IH]; intros s H; [split; reflexivity|].
  cbn [TemporalBinner.no_close] in H. apply andb_prop in H as [Hn Hr].
  unfold TemporalBinner.sig_loop in *. cbn [fold_left].
  destruct (IH _ Hr) as [-> ->].
  unfold TemporalBinner.closes, TemporalBinner.sig_step in *.
  destruct (Qle_bool mc _); cbn [negb andb] in *; [|split; reflexivity].
  destruct (Qle_bool sl _); cbn [negb] in *; [discriminate|split; reflexivity].
Qed.

(** C8: when the test passes at [time] (enough counts and
    [sigma >= sigma_level]) the bin [(current_start, time)] is appended,
    [current_start] becomes [time] and [total_counts] becomes 0; otherwise
    no bin is appended; the result is the lists at the end of the scan with
    no bin closed there, so a trailing stretch at which the test never
    passes adds no bin. *)
Theorem bin_by_significance_spec sig bg bge sl mc :
  (forall s time, TemporalBinner.closes sig bg bge sl mc s time = true ->
     TemporalBinner.sig_step sig bg bge sl mc s time
     = TemporalBinner.mkSState (TemporalBinner.ss_starts s ++ [TemporalBinner.current_start s])
                               (TemporalBinner.ss_stops s ++ [time]) 0%Q time)
  /\ (forall s time, TemporalBinner.closes sig bg bge sl mc s time = false ->
     TemporalBinner.ss_starts (TemporalBinner.sig_step sig bg bge sl mc s time) = TemporalBinner.ss_starts s
     /\ TemporalBinner.ss_stops (TemporalBinner.sig_step sig bg bge sl mc s time) = TemporalBinner.ss_stops s)
  /\ (forall t0 rest ss,
     let final := TemporalBinner.sig_loop sig bg bge sl mc
                    (TemporalBinner.mkSState [] [] 0%Q t0) (t0 :: rest) in
     TemporalBinner.bin_by_significance sig bg bge sl mc (TemporalBinner.mk (t0 :: rest) ss)
     = Ok (TemporalBinner.mk (t0 :: rest)
             (Some (TemporalBinner.ss_starts final, TemporalBinner.ss_stops final))))
  /\ (forall s pre suf,
     TemporalBinner.no_close sig bg bge sl mc (TemporalBinner.sig_loop sig bg bge sl mc s pre) suf = true ->
     TemporalBinner.ss_starts (TemporalBinner.sig_loop sig bg bge sl mc s (pre ++ suf))
     = TemporalBinner.ss_starts (TemporalBinner.sig_loop sig bg bge sl mc s pre)
     /\ TemporalBinner.ss_stops (TemporalBinner.sig_loop sig bg bge sl mc s (pre ++ suf))
     = TemporalBinner.ss_stops (TemporalBinner.sig_loop sig bg bge sl mc s pre)).
Proof.
  split; [|split; [|split]].
  - intros s time H. unfold TemporalBinner.closes in H. unfold TemporalBinner.sig_step.
    apply andb_prop in H as [H1 H2]. rewrite H1. cbn [negb]. rewrite H2. reflexivity.
  - intros s time H. unfold TemporalBinner.closes in H. unfold TemporalBinner.sig_step.
    destruct (Qle_bool mc _); cbn [negb andb] in *; [|split; reflexivity].
    rewrite H. split; reflexivity.
  - intros t0 rest ss final. reflexivity.
  - intros s pre suf H. unfold TemporalBinner.sig_loop at 1 3. rewrite fold_left_app.
    apply sig_loop_no_close. exact H.
Qed.

Lemma arange_spec start stop step :
  (0 < step)%Q ->
  exists n, TemporalBinner.arange start stop step
            = Ok (map (fun i => start + inject_Z (Z.of_nat i) * step)%Q (seq 0 n))
    /\ (forall i, i < n -> (start + inject_Z (Z.of_nat i) * step < stop)%Q)
    /\ (stop <= start + inject_Z (Z.of_nat n) * step)%Q.
Proof.
  intros Hs. unfold TemporalBinner.arange.
  replace (Qeq_bool step 0) with false
    by (symmetry; apply not_true_iff_false; rewrite Qeq_bool_iff;
        intros H; rewrite H in Hs; discriminate).
  set (q := ((stop - start) / step)%Q).
  assert (Hq : (q * step == stop - start)%Q).
  { unfold q. field. intros H. rewrite H in Hs. discriminate. }
  exists (Z.to_nat (Qceiling q)). split; [reflexivity|]. split.
  - intros i Hi.
    assert (Hz : (Z.of_nat i <= Qceiling q - 1)%Z) by lia.
    rewrite Zle_Qle in Hz.
    assert (Hiq : (inject_Z (Z.of_nat i) < q)%Q)
      by (eapply Qle_lt_trans; [exact Hz|apply Qceiling_lt]).
    apply (Qmult_lt_compat_r _ _ step Hs) in Hiq. rewrite Hq in Hiq.
    apply (Qplus_lt_r _ _ start) in Hiq.
    setoid_replace (start + (stop - start))%Q with stop in Hiq by ring. exact Hiq.
  - assert (Hz : (Qceiling q <= Z.of_nat (Z.to_nat (Qceiling q)))%Z) by lia.
    rewrite Zle_Qle in Hz.
    assert (Hnq : (q <= inject_Z (Z.of_nat (Z.to_nat (Qceiling q))))%Q)
      by (eapply Qle_trans; [apply Qle_ceiling|exact Hz]).
    apply (Qmult_le_compat_r _ _ step) in Hnq; [|apply Qlt_le_weak; exact Hs].
    rewrite Hq in Hnq. apply (Qplus_le_r _ _ start) in Hnq.
    setoid_replace (start + (stop - start))%Q with stop in Hnq by ring. exact Hnq.
Qed.

(** C9: for [dt > 0], [bin_by_constanst(dt)] sets the starts to
    [first, first + dt, first + 2 dt, ...], exactly the terms below the last
    arrival time, and the stops to the starts plus [dt]; on
    [[0; 1; 5; 9]] with [dt = 2] this gives starts [[0;2;4;6;8]] and stops
    [[2;4;6;8;10]]. *)
Theorem bin_by_constanst_spec t0 rest ss dt :
  (0 < dt)%Q ->
  (exists n,
     let starts := map (fun i => t0 + inject_Z (Z.of_nat i) * dt)%Q (seq 0 n) in
     TemporalBinner.bin_by_constanst (TemporalBinner.mk (t0 :: rest) ss) dt
     = Ok (TemporalBinner.mk (t0 :: rest) (Some (starts, map (fun a => a + dt)%Q starts)))
     /\ (forall i, i < n -> (t0 + inject_Z (Z.of_nat i) * dt < last (t0 :: rest) t0)%Q)
     /\ (last (t0 :: rest) t0 <= t0 + inject_Z (Z.of_nat n) * dt)%Q)
  /\ TemporalBinner.bin_by_constanst (TemporalBinner.mk [0; 1; 5; 9]%Q ss) 2
     = Ok (TemporalBinner.mk [0; 1; 5; 9]%Q (Some ([0; 2; 4; 6; 8]%Q, [2; 4; 6; 8; 10]%Q))).
Proof.
  intros Hdt. split; [|vm_compute; reflexivity].
  destruct (arange_spec t0 (last (t0 :: rest) t0) dt Hdt) as (n & Ha & Hlt & Hge).
  exists n. cbn zeta. split; [|split; assumption].
  unfold TemporalBinner.bin_by_constanst. cbn [TemporalBinner.arrival_times].
  rewrite Ha. reflexivity.
Qed.

(** ** Witnesses: the theorems at concrete inputs *)

Lemma rebin_sum_preserved_witness :
  exists r, Rebinner.init [1;1;1]%Q 2 (Some [true; false; true]) = Ok r
  /\ length [3;4;5]%Q = length [1;1;1]%Q
  /\ (qsum (Rebinner.rebinned r [3;4;5]%Q)
        == qsum (mask_select [3;4;5]%Q (effective_mask (Some [true; false; true]) 3)))%Q
  /\ (forall out, Rebinner.rebin r [[3;4;5]%Q] = Ok [out] ->
        (qsum out == qsum (mask_select [3;4;5]%Q (effective_mask (Some [true; false; true]) 3)))%Q)
  /\ (~ (qsum (mask_select [3;4;5]%Q (effective_mask (Some [true; false; true]) 3)) == 0)%Q ->
        Rebinner.rebin r [[3;4;5]%Q] = Ok [Rebinner.rebinned r [3;4;5]%Q]).
Proof.
  eexists. split; [vm_compute; reflexivity|]. split; [reflexivity|].
  apply (rebin_sum_preserved [1;1;1]%Q 2 (Some [true; false; true])); [vm_compute; reflexivity|reflexivity].
Defined.

Lemma bins_min_value_witness :
  exists r, Rebinner.init [1;1;1]%Q 2 (Some [true; false; true]) = Ok r
  /\ 0 < Rebinner.n_bins r
  /\ (Qle 2%Q (qsum (slice [1;1;1]%Q (nth 0 (Rebinner.r_starts r) 0) (nth 0 (Rebinner.r_stops r) 0)))
      \/ (nth 0 (Rebinner.r_stops r) 0 < 3
          /\ nth (nth 0 (Rebinner.r_stops r) 0) (effective_mask (Some [true; false; true]) 3) false = false)
      \/ 1 = Rebinner.n_bins r).
Proof.
  eexists. split; [vm_compute; reflexivity|]. split; [vm_compute; lia|].
  apply (bins_min_value [1;1;1]%Q 2 (Some [true; false; true])); [vm_compute; reflexivity|vm_compute; lia].
Defined.

Lemma bins_partition_witness :
  exists r, Rebinner.init [1;1;1;1;1;1]%Q 2 (Some [true; true; false; true; true; true]) = Ok r
  /\ length (Rebinner.r_stops r) = Rebinner.n_bins r
  /\ (forall j, j < 6 -> nth j (effective_mask (Some [true; true; false; true; true; true]) 6) false = true ->
        exists i, i < Rebinner.n_bins r
                  /\ nth i (Rebinner.r_starts r) 0 <= j < nth i (Rebinner.r_stops r) 0).
Proof.
  eexists. split; [vm_compute; reflexivity|].
  pose proof (bins_partition [1;1;1;1;1;1]%Q 2 (Some [true; true; false; true; true; true]) _
                ltac:(vm_compute; reflexivity)) as H.
  cbv zeta in H. destruct H as (H1 & _ & _ & _ & H5 & _). split; [exact H1|exact H5].
Defined.

Lemma rebin_errors_quadrature_witness :
  exists r, Rebinner.init [1;1;1]%Q 2 None = Ok r
  /\ exists out, Rebinner.rebin_errors r [[3;0;4]%Q] = Ok [out]
    /\ length out = Rebinner.n_bins r
    /\ forall i, i < Rebinner.n_bins r ->
         nth i out 0%R = sqrt (Q2R (qsum (map (fun a => a * a)%Q
                              (slice [3;0;4]%Q (nth i (Rebinner.r_starts r) 0)
                                       (nth i (Rebinner.r_stops r) 0))))).
Proof.
  eexists. split; [vm_compute; reflexivity|].
  apply (rebin_errors_quadrature [1;1;1]%Q 2 None); [vm_compute; reflexivity|reflexivity].
Defined.

Lemma rebin_zero_masked_total_witness :
  exists r, Rebinner.init [1;1;1]%Q 2 None = Ok r
  /\ Rebinner.rebin r [[0;0;0]%Q] = Err AssertionError.
Proof.
  eexists. split; [vm_compute; reflexivity|].
  apply (rebin_zero_masked_total [1;1;1]%Q 2 None); [vm_compute; reflexivity|reflexivity|vm_compute; reflexivity].
Defined.

Lemma bin_by_constanst_spec_witness :
  (0 < 2)%Q
  /\ (exists n,
     let starts := map (fun i => 0 + inject_Z (Z.of_nat i) * 2)%Q (seq 0 n) in
     TemporalBinner.bin_by_constanst (TemporalBinner.mk [0; 1; 5; 9]%Q None) 2
     = Ok (TemporalBinner.mk [0; 1; 5; 9]%Q (Some (starts, map (fun a => a + 2)%Q starts)))
     /\ (forall i, i < n -> (0 + inject_Z (Z.of_nat i) * 2 < last [0; 1; 5; 9]%Q 0)%Q)
     /\ (last [0; 1; 5; 9]%Q 0 <= 0 + inject_Z (Z.of_nat n) * 2)%Q).
Proof.
  split; [vm_compute; reflexivity|].
  apply (proj1 (bin_by_constanst_spec 0 [1; 5; 9]%Q None 2 ltac:(vm_compute; reflexivity))).
Defined.


(** ** Further properties of [Rebinner] *)

(** The bins of a successful construction at the level of [nth]. *)
Lemma bins_facts v m mask r :
  Rebinner.init v m mask = Ok r ->
  let starts := Rebinner.r_starts r in
  let stops := Rebinner.r_stops r in
  let msk := Rebinner.r_mask r in
  let nb := Rebinner.n_bins r in
  msk = effective_mask mask (length v) /\ length msk = length v
  /\ length stops = nb
  /\ (forall i, i < nb -> nth i starts 0 < nth i stops 0 <= length v)
  /\ (forall i k, i < k < nb -> nth i stops 0 <= nth k starts 0)
  /\ (forall i j, i < nb -> nth i starts 0 <= j < nth i stops 0 -> nth j msk false = true)
  /\ (forall j, j < length v -> nth j msk false = true ->
        exists i, i < nb /\ nth i starts 0 <= j < nth i stops 0).
Proof.
  intros Hi starts stops msk nb.
  destruct (init_ok v m mask r Hi) as (_ & Hmsk & Hl & bins & Hs & He & _ & Hnb & G).
  subst starts stops msk nb. rewrite Hnb, Hs, He.
  destruct G as [Gs Gr Gm Gc _ _]. rewrite Forall_nth in Gr, Gm.
  split; [exact Hmsk|]. split; [exact Hl|].
  split; [apply length_map|].
  split; [intros i Hlt; rewrite nth_map_fst, nth_map_snd; apply Gr; exact Hlt|].
  split.
  { intros i k Hlt. rewrite nth_map_fst, nth_map_snd.
    apply (StronglySorted_nth _ _ _ _ _ Gs). lia. }
  split.
  { intros i j Hlt Hj. rewrite nth_map_fst, nth_map_snd in Hj. exact (Gm i (0, 0) Hlt j Hj). }
  intros j Hj Hmj. destruct (proj1 (Exists_exists _ _) (Gc j Hj Hmj)) as (p & Hin & Hp).
  destruct (In_nth bins p (0, 0) Hin) as (i & Hlt & Hnth).
  exists i. rewrite nth_map_fst, nth_map_snd, Hnth. auto.
Qed.

Lemma getitem_in_range (l : list Q) (i : Z) :
  (0 <= i < Z.of_nat (length l))%Z -> Rebinner.getitem l i = Ok (nth (Z.to_nat i) l 0%Q).
Proof.
  intros H. unfold Rebinner.getitem.
  replace ((i <? - Z.of_nat (length l)) || (Z.of_nat (length l) <=? i))%Z with false.
  - replace (i <? 0)%Z with false by (symmetry; apply Z.ltb_ge; lia). reflexivity.
  - symmetry. apply orb_false_iff. split; [apply Z.ltb_ge|apply Z.leb_gt]; lia.
Qed.

Lemma new_edges_in_range os ot bs :
  Forall (fun p => fst p < snd p /\ snd p <= length os /\ snd p <= length ot) bs ->
  Rebinner.new_edges os ot bs
  = Ok (map (fun p => nth (fst p) os 0%Q) bs, map (fun p => nth (snd p - 1) ot 0%Q) bs).
Proof.
  induction bs as [|[lo hi] bs IH]; intros H; [reflexivity|].
  inversion H as [|? ? Hp Hf]; subst. cbn [fst snd] in Hp.
  cbn [Rebinner.new_edges].
  rewrite getitem_in_range by lia. rewrite getitem_in_range by lia.
  rewrite IH by exact Hf. replace (Z.to_nat (Z.of_nat lo)) with lo by lia.
  replace (Z.to_nat (Z.of_nat hi - 1)) with (hi - 1) by lia. reflexivity.
Qed.

(** [get_new_start_and_stop] on edge arrays of the reference length never
    fails: it returns, per bin, [old_start] at the bin's first index and
    [old_stop] at its last index. *)
Theorem get_new_start_and_stop_values v m mask r os ot :
  Rebinner.init v m mask = Ok r -> length os = length v -> length ot = length v ->
  Rebinner.get_new_start_and_stop r os ot
  = Ok (map (fun s => nth s os 0%Q) (Rebinner.r_starts r),
        map (fun e => nth (e - 1) ot 0%Q) (Rebinner.r_stops r)).
Proof.
  intros Hi Hos Hot.
  destruct (init_ok v m mask r Hi) as (_ & _ & Hl & bins & Hs & He & Hb & _ & G).
  unfold Rebinner.get_new_start_and_stop.
  replace (length os =? length (Rebinner.r_mask r)) with true by (symmetry; apply Nat.eqb_eq; lia).
  replace (length ot =? length (Rebinner.r_mask r)) with true by (symmetry; apply Nat.eqb_eq; lia).
  cbn [andb]. rewrite Hb, Hs, He, !map_map. apply new_edges_in_range.
  eapply Forall_impl; [|exact (g_range _ _ _ _ _ G)]. cbn. intros p Hp. lia.
Qed.


Lemma nth_map_lt {A B} (f : A -> B) (l : list A) (d : B) (d' : A) i :
  i < length l -> nth i (map f l) d = f (nth i l d').
Proof.
  intros H. rewrite (nth_indep (map f l) d (f d')) by (rewrite length_map; exact H).
  apply map_nth.
Qed.

Lemma in_starts_lt v m mask r s :
  Rebinner.init v m mask = Ok r -> In s (Rebinner.r_starts r) -> s < length v.
Proof.
  intros Hi Hin. destruct (bins_facts v m mask r Hi) as (_ & _ & _ & Hr & _).
  destruct (In_nth _ _ 0 Hin) as (i & Hlt & <-). apply Hr in Hlt. lia.
Qed.

Lemma in_stops_range v m mask r e :
  Rebinner.init v m mask = Ok r -> In e (Rebinner.r_stops r) -> 1 <= e <= length v.
Proof.
  intros Hi Hin. destruct (bins_facts v m mask r Hi) as (_ & _ & Hls & Hr & _).
  destruct (In_nth _ _ 0 Hin) as (i & Hlt & <-). rewrite Hls in Hlt. apply Hr in Hlt. lia.
Qed.

(** With the identity edges [[0; 1; ...; N-1]] as both [old_start] and
    [old_stop], [get_new_start_and_stop] returns each bin's first index and
    its last index [stop - 1]. *)
Theorem get_new_start_and_stop_identity v m mask r :
  Rebinner.init v m mask = Ok r ->
  let idx := map (fun j => inject_Z (Z.of_nat j)) (seq 0 (length v)) in
  Rebinner.get_new_start_and_stop r idx idx
  = Ok (map (fun s => inject_Z (Z.of_nat s)) (Rebinner.r_starts r),
        map (fun e => inject_Z (Z.of_nat (e - 1))) (Rebinner.r_stops r)).
Proof.
  intros Hi idx.
  assert (Hl : length idx = length v) by (subst idx; rewrite length_map, length_seq; reflexivity).
  rewrite (get_new_start_and_stop_values v m mask r idx idx Hi Hl Hl).
  f_equal. f_equal; apply map_ext_in.
  - intros s Hs. pose proof (in_starts_lt v m mask r s Hi Hs).
    subst idx. rewrite (nth_map_lt _ _ _ 0) by (rewrite length_seq; lia).
    rewrite seq_nth by lia. reflexivity.
  - intros e He. pose proof (in_stops_range v m mask r e Hi He).
    subst idx. rewrite (nth_map_lt _ _ _ 0) by (rewrite length_seq; lia).
    rewrite seq_nth by lia. reflexivity.
Qed.

(** When the old edges are ordered (starts non-decreasing, each start at most
    its stop, each stop at most the next start), the new edges are ordered
    the same way: each new bin starts no later than it stops and stops no
    later than the next new bin starts. *)
Theorem get_new_start_and_stop_ordered v m mask r os ot ns nt :
  Rebinner.init v m mask = Ok r -> length os = length v -> length ot = length v ->
  (forall j k, j <= k < length v -> Qle (nth j os 0%Q) (nth k os 0%Q)) ->
  (forall j, j < length v -> Qle (nth j os 0%Q) (nth j ot 0%Q)) ->
  (forall j, S j < length v -> Qle (nth j ot 0%Q) (nth (S j) os 0%Q)) ->
  Rebinner.get_new_start_and_stop r os ot = Ok (ns, nt) ->
  (forall i, i < Rebinner.n_bins r -> Qle (nth i ns 0%Q) (nth i nt 0%Q))
  /\ (forall i, S i < Rebinner.n_bins r -> Qle (nth i nt 0%Q) (nth (S i) ns 0%Q)).
Proof.
  intros Hi Hos Hot Hmono Hse Hes Hg.
  rewrite (get_new_start_and_stop_values v m mask r os ot Hi Hos Hot) in Hg.
  injection Hg as <- <-.
  destruct (bins_facts v m mask r Hi) as (_ & _ & Hls & Hr & Hord & _).
  unfold Rebinner.n_bins in *.
  split.
  - intros i Hlt. rewrite !(nth_map_lt _ _ _ 0) by lia.
    specialize (Hr i Hlt).
    apply Qle_trans with (nth (nth i (Rebinner.r_stops r) 0 - 1) os 0%Q).
    + apply Hmono. lia.
    + apply Hse. lia.
  - intros i Hlt. rewrite !(nth_map_lt _ _ _ 0) by lia.
    pose proof (Hr i ltac:(lia)) as H1. pose proof (Hr (S i) Hlt) as H2.
    pose proof (Hord i (S i) ltac:(lia)) as H3.
    apply Qle_trans with (nth (nth i (Rebinner.r_stops r) 0) os 0%Q).
    + replace (nth i (Rebinner.r_stops r) 0) with (S (nth i (Rebinner.r_stops r) 0 - 1)) at 2 by lia.
      apply Hes. lia.
    + apply Hmono. lia.
Qed.

Lemma rebin_one_ok_iff v m mask r x :
  Rebinner.init v m mask = Ok r ->
  ((exists o, Rebinner.rebin_one r x = Ok o)
   <-> length x = length v
       /\ ~ (qsum (mask_select x (effective_mask mask (length v))) == 0)%Q).
Proof.
  intros Hi. destruct (init_ok v m mask r Hi) as (_ & Hmsk & Hl & _).
  unfold Rebinner.rebin_one. rewrite <- Hmsk.
  destruct (length x =? length (Rebinner.r_mask r)) eqn:E; cbn [negb].
  - apply Nat.eqb_eq in E.
    destruct (Qeq_dec (qsum (mask_select x (Rebinner.r_mask r))) 0) as [Hz|Hz].
    + rewrite sum_check_zero by exact Hz. split.
      * intros (o & Ho). discriminate.
      * intros (_ & Hnz). contradiction.
    + rewrite sum_check_equal by (auto; apply (rebinned_total v m mask r x Hi); lia).
      split; [intros _; split; [lia|exact Hz]|eauto].
  - apply Nat.eqb_neq in E. split.
    + intros (o & Ho). discriminate.
    + intros (Hx & _). lia.
Qed.

Lemma rebin_one_err r x e : Rebinner.rebin_one r x = Err e -> e = AssertionError.
Proof.
  unfold Rebinner.rebin_one.
  destruct (negb _); [congruence|]. destruct (Rebinner.sum_check _ _); congruence.
Qed.

(** [rebin( *vectors)] succeeds exactly when every vector has the reference
    length and a non-zero masked total; any failure is an [AssertionError]. *)
Theorem rebin_succeeds_iff v m mask r vs :
  Rebinner.init v m mask = Ok r ->
  ((exists outs, Rebinner.rebin r vs = Ok outs)
   <-> Forall (fun x => length x = length v
                        /\ ~ (qsum (mask_select x (effective_mask mask (length v))) == 0)%Q) vs)
  /\ (forall e, Rebinner.rebin r vs = Err e -> e = AssertionError).
Proof.
  intros Hi. induction vs as [|x vs [IH1 IH2]]; cbn [Rebinner.rebin].
  - split; [split; [intros _; constructor|eauto]|discriminate].
  - pose proof (rebin_one_ok_iff v m mask r x Hi) as Hx.
    destruct (Rebinner.rebin_one r x) as [o|e] eqn:Ho.
    + destruct (Rebinner.rebin r vs) as [outs|e] eqn:Hr.
      * split; [|discriminate]. split; [intros _|eauto].
        constructor; [apply Hx; eauto|apply IH1; eauto].
      * split; [|intros e' He'; injection He' as <-; apply IH2; reflexivity].
        split; [intros (outs & Hc); discriminate|].
        intros Hf. inversion Hf as [|? ? _ Hf']; subst.
        destruct (proj2 IH1 Hf') as (outs & Hc). discriminate.
    + split; [|intros e' He'; injection He' as <-; apply (rebin_one_err r x); exact Ho].
      split; [intros (outs & Hc); discriminate|].
      intros Hf. inversion Hf as [|? ? Hx' _]; subst.
      destruct (proj2 Hx Hx') as (o & Hc). discriminate.
Qed.

(** Each vector [rebin] returns has one entry per bin and the masked total
    of the vector it comes from. *)
Theorem rebin_outputs v m mask r vs outs :
  Rebinner.init v m mask = Ok r -> Rebinner.rebin r vs = Ok outs ->
  Forall2 (fun x o => length o = Rebinner.n_bins r
                      /\ (qsum o == qsum (mask_select x (effective_mask mask (length v))))%Q)
          vs outs.
Proof.
  intros Hi. destruct (init_ok v m mask r Hi) as (_ & Hmsk & Hl & bins & _ & _ & Hb & Hnb & _).
  revert outs. induction vs as [|x vs IH]; intros outs Hr; cbn [Rebinner.rebin] in Hr.
  - injection Hr as <-. constructor.
  - destruct (Rebinner.rebin_one r x) as [o|e] eqn:Ho; [|discriminate].
    destruct (Rebinner.rebin r vs) as [outs'|e] eqn:Hr'; [|discriminate].
    injection Hr as <-. constructor; [|apply IH; reflexivity].
    unfold Rebinner.rebin_one in Ho.
    destruct (length x =? length (Rebinner.r_mask r)) eqn:E; cbn [negb] in Ho; [|discriminate].
    destruct (Rebinner.sum_check _ _); [|discriminate]. injection Ho as <-.
    apply Nat.eqb_eq in E. split.
    + unfold Rebinner.rebinned. rewrite Hb, Hnb, length_map. reflexivity.
    + rewrite <- Hmsk. apply (rebinned_total v m mask r x Hi). lia.
Qed.


Lemma qsum_squares_nonneg l : (0 <= qsum (map (fun a => a * a) l))%Q.
Proof.
  induction l as [|a l IH]; cbn [map qsum fold_right]; [apply Qle_refl|].
  fold (qsum (map (fun a => (a * a)%Q) l)). nra.
Qed.

(** Each error [rebin_errors] returns, squared, is the per-bin sum of the
    squares of the vector: [rebin_errors] is the square root of the
    rebinned squares. *)
Theorem rebin_errors_squared r x e :
  Rebinner.rebin_errors r [x] = Ok [e] ->
  forall i, i < length (Rebinner.bins r) ->
  (nth i e 0 * nth i e 0)%R = Q2R (nth i (Rebinner.rebinned r (map (fun a => a * a)%Q x)) 0%Q).
Proof.
  intros He i Hi. cbn [Rebinner.rebin_errors] in He. unfold Rebinner.rebin_errors_one in He.
  destruct (negb _); [discriminate|]. injection He as <-.
  unfold Rebinner.rebinned.
  rewrite !(nth_map_lt _ _ _ (0, 0)) by exact Hi.
  unfold slice. rewrite skipn_map, firstn_map. fold (slice x (fst (nth i (Rebinner.bins r) (0, 0)))
                                                          (snd (nth i (Rebinner.bins r) (0, 0)))).
  apply sqrt_sqrt. replace 0%R with (Q2R 0) by (unfold Q2R; simpl; ring).
  apply Qle_Rle. apply qsum_squares_nonneg.
Qed.

Lemma sorted_bins_length lo hi bs :
  StronglySorted before bs ->
  Forall (fun p => lo <= fst p /\ fst p < snd p <= hi) bs -> length bs <= hi - lo.
Proof.
  revert lo; induction bs as [|[s e] bs IH]; intros lo Hs Hf; cbn; [lia|].
  inversion Hs as [|? ? Hs' Hb]; subst. inversion Hf as [|? ? Hp Hf']; subst. cbn in Hp.
  assert (length bs <= hi - e); [|lia].
  apply IH; auto. apply Forall_forall. intros q Hq.
  rewrite Forall_forall in Hb, Hf'. specialize (Hb q Hq). specialize (Hf' q Hq).
  unfold before in Hb. cbn in Hb. lia.
Qed.

(** There are at most as many bins as elements of the reference sequence. *)
Theorem n_bins_le_length v m mask r :
  Rebinner.init v m mask = Ok r -> Rebinner.n_bins r <= length v.
Proof.
  intros Hi. destruct (init_ok v m mask r Hi) as (_ & _ & _ & bins & _ & _ & _ & Hnb & G).
  rewrite Hnb. rewrite <- (Nat.sub_0_r (length v)).
  apply (sorted_bins_length 0 (length v)); [exact (g_sorted _ _ _ _ _ G)|].
  eapply Forall_impl; [|exact (g_range _ _ _ _ _ G)]. cbv beta. intros p Hp. lia.
Qed.

(** The construction produces no bin exactly when the mask excludes every
    element. *)
Theorem n_bins_zero_iff v m mask r :
  Rebinner.init v m mask = Ok r ->
  Rebinner.n_bins r = 0
  <-> (forall j, j < length v -> nth j (effective_mask mask (length v)) false = false).
Proof.
  intros Hi.
  destruct (bins_facts v m mask r Hi) as (Hmsk & _ & _ & Hr & _ & Hm & Hc).
  rewrite <- Hmsk. split.
  - intros H0 j Hj. destruct (nth j (Rebinner.r_mask r) false) eqn:E; [|reflexivity].
    destruct (Hc j Hj E) as (i & Hlt & _). lia.
  - intros Hall. destruct (Rebinner.n_bins r) as [|nb] eqn:E; [reflexivity|exfalso].
    pose proof (Hr 0 ltac:(lia)) as H0.
    pose proof (Hm 0 (nth 0 (Rebinner.r_starts r) 0) ltac:(lia) ltac:(lia)) as H1.
    rewrite Hall in H1 by lia. discriminate.
Qed.

Lemma nth_repeat_true n j : j < n -> nth j (repeat true n) false = true.
Proof. revert j; induction n as [|n IH]; intros [|j] H; cbn; auto; try lia. apply IH. lia. Qed.

(** Without a mask the bins tile the whole reference sequence: the first
    starts at 0, the last stops at its length, and each bin stops where the
    next one starts. *)
Theorem no_mask_bins_tile v m r :
  Rebinner.init v m None = Ok r -> 0 < length v ->
  let starts := Rebinner.r_starts r in
  let stops := Rebinner.r_stops r in
  let nb := Rebinner.n_bins r in
  0 < nb /\ nth 0 starts 0 = 0 /\ nth (nb - 1) stops 0 = length v
  /\ (forall i, S i < nb -> nth i stops 0 = nth (S i) starts 0).
Proof.
  intros Hi Hpos starts stops nb.
  destruct (bins_facts v m None r Hi) as (Hmsk & _ & _ & Hr & Hord & _ & Hc).
  cbn [effective_mask] in Hmsk.
  assert (Hall : forall j, j < length v -> nth j (Rebinner.r_mask r) false = true)
    by (intros j Hj; rewrite Hmsk; apply nth_repeat_true; exact Hj).
  subst starts stops nb.
  destruct (Hc 0 Hpos (Hall 0 Hpos)) as (k0 & Hk0 & Hk0r).
  split; [lia|]. split.
  { destruct k0 as [|k0]; [lia|].
    pose proof (Hr 0 ltac:(lia)). pose proof (Hord 0 (S k0) ltac:(lia)). lia. }
  split.
  { destruct (Hc (length v - 1) ltac:(lia) (Hall (length v - 1) ltac:(lia))) as (k & Hk & Hkr).
    pose proof (Hr k Hk) as Hrk.
    destruct (Nat.eq_dec k (Rebinner.n_bins r - 1)) as [<-|Hne]; [lia|].
    pose proof (Hr (Rebinner.n_bins r - 1) ltac:(lia)).
    pose proof (Hord k (Rebinner.n_bins r - 1) ltac:(lia)). lia. }
  intros i Hlt.
  pose proof (Hord i (S i) ltac:(lia)) as Hle.
  pose proof (Hr i ltac:(lia)) as Hri. pose proof (Hr (S i) Hlt) as Hrs.
  destruct (Nat.eq_dec (nth i (Rebinner.r_stops r) 0) (nth (S i) (Rebinner.r_starts r) 0))
    as [|Hne]; [assumption|exfalso].
  set (j := nth i (Rebinner.r_stops r) 0) in *.
  destruct (Hc j ltac:(lia) (Hall j ltac:(lia))) as (k & Hk & Hkr).
  pose proof (Hr k Hk) as Hrk.
  destruct (Nat.lt_trichotomy k i) as [Hki|[->|Hki]].
  - pose proof (Hord k i ltac:(lia)). lia.
  - lia.
  - destruct (Nat.eq_dec k (S i)) as [->|Hks]; [lia|].
    pose proof (Hord (S i) k ltac:(lia)). lia.
Qed.


(** With a large enough total and no mask or a mask of the reference length,
    the construction succeeds: its final assertion that starts and stops
    are equally many never fails. *)
Theorem init_succeeds v m mask :
  (m <= qsum v)%Q -> (forall msk, mask = Some msk -> length msk = length v) ->
  exists r, Rebinner.init v m mask = Ok r.
Proof.
  intros Ht Hm. unfold Rebinner.init.
  replace (Qle_bool m (qsum v)) with true by (symmetry; apply Qle_bool_iff; exact Ht).
  cbn [negb].
  assert (Hc : forall msk,
    exists r, (let s := Rebinner.loop m msk Rebinner.init_state 0 v in
       let stops := if Rebinner.st_open s then Rebinner.st_stops s ++ [length v]
                    else Rebinner.st_stops s in
       if length (Rebinner.st_starts s) =? length stops
       then Ok {| Rebinner.r_mask := msk; Rebinner.r_starts := Rebinner.st_starts s;
                  Rebinner.r_stops := stops; Rebinner.r_min_value_per_bin := m |}
       else Err AssertionError) = Ok r).
  { intros msk. pose proof (construction_good v m msk) as Hg. cbv zeta in Hg |- *.
    destruct Hg as (bins & Hs & Ht' & _). rewrite Hs, Ht', !length_map, Nat.eqb_refl.
    eexists. reflexivity. }
  destruct mask as [msk|].
  - rewrite (Hm msk eq_refl), Nat.eqb_refl. apply Hc.
  - apply Hc.
Qed.

(** ** Further properties of [TemporalBinner] *)

Lemma sig_loop_contiguous sig bg bge sl mc t0 (P : Q -> Prop) : forall times s,
  TemporalBinner.ss_starts s ++ [TemporalBinner.current_start s] = t0 :: TemporalBinner.ss_stops s ->
  Forall P (TemporalBinner.ss_stops s) -> Forall P times ->
  let s' := TemporalBinner.sig_loop sig bg bge sl mc s times in
  TemporalBinner.ss_starts s' ++ [TemporalBinner.current_start s'] = t0 :: TemporalBinner.ss_stops s'
  /\ Forall P (TemporalBinner.ss_stops s').
Proof.
  induction times as [|time rest IH]; intros s Hc HP Ht; [split; assumption|].
  inversion Ht as [|? ? Hpt Hrest]; subst.
  unfold TemporalBinner.sig_loop. cbn [fold_left]. apply IH; [| |exact Hrest];
    unfold TemporalBinner.sig_step;
    destruct (Qle_bool mc _); cbn [negb TemporalBinner.ss_starts TemporalBinner.ss_stops
                                   TemporalBinner.current_start]; auto;
    destruct (Qle_bool sl _); cbn [TemporalBinner.ss_starts TemporalBinner.ss_stops
                                   TemporalBinner.current_start]; auto.
  - rewrite Hc. reflexivity.
  - apply Forall_app. split; [exact HP|repeat constructor; exact Hpt].
Qed.

(** The bins of [bin_by_significance] are contiguous and end at arrival
    times: appending the final window start to the starts gives the first
    arrival time followed by the stops, and every stop is one of the
    arrival times. *)
Theorem bin_by_significance_contiguous sig bg bge sl mc ts ss tb :
  TemporalBinner.bin_by_significance sig bg bge sl mc (TemporalBinner.mk ts ss) = Ok tb ->
  exists starts stops cs, TemporalBinner.starts_stops tb = Some (starts, stops)
    /\ starts ++ [cs] = hd 0%Q ts :: stops
    /\ Forall (fun x => In x ts) stops.
Proof.
  unfold TemporalBinner.bin_by_significance. cbn [TemporalBinner.arrival_times].
  destruct ts as [|t0 rest]; [discriminate|]. intros H. injection H as <-.
  destruct (sig_loop_contiguous sig bg bge sl mc t0 (fun x => In x (t0 :: rest)) (t0 :: rest)
              (TemporalBinner.mkSState [] [] 0%Q t0) eq_refl (Forall_nil _)
              (proj2 (Forall_forall _ _) (fun x Hx => Hx))) as [Hc HP].
  do 3 eexists. split; [reflexivity|]. split; [exact Hc|exact HP].
Qed.

Lemma injn_S n : (inject_Z (Z.of_nat (S n)) == inject_Z (Z.of_nat n) + 1)%Q.
Proof. rewrite Znat.Nat2Z.inj_succ, <- Z.add_1_r, inject_Z_plus. reflexivity. Qed.

Lemma sig_loop_count sig bg bge sl mc : forall times s k,
  (0 <= TemporalBinner.total_counts s)%Q ->
  (inject_Z (Z.of_nat (length (TemporalBinner.ss_stops s))) * mc
     + TemporalBinner.total_counts s <= inject_Z (Z.of_nat k))%Q ->
  let s' := TemporalBinner.sig_loop sig bg bge sl mc s times in
  (0 <= TemporalBinner.total_counts s')%Q
  /\ (inject_Z (Z.of_nat (length (TemporalBinner.ss_stops s'))) * mc
       + TemporalBinner.total_counts s' <= inject_Z (Z.of_nat (k + length times)))%Q.
Proof.
  induction times as [|time rest IH]; intros s k H0 H1.
  - cbn. rewrite Nat.add_0_r. split; assumption.
  - unfold TemporalBinner.sig_loop. cbn [fold_left length].
    replace (k + S (length rest)) with (S k + length rest) by lia.
    apply IH; unfold TemporalBinner.sig_step.
    + destruct (Qle_bool mc (TemporalBinner.total_counts s + 1));
        cbn [negb TemporalBinner.total_counts]; [destruct (Qle_bool sl _)|];
        cbn [TemporalBinner.total_counts]; lra.
    + rewrite injn_S.
      set (X := (inject_Z (Z.of_nat (length (TemporalBinner.ss_stops s))) * mc)%Q) in *.
      destruct (Qle_bool mc (TemporalBinner.total_counts s + 1)) eqn:E1;
        cbn [negb TemporalBinner.ss_stops TemporalBinner.total_counts].
      * destruct (Qle_bool sl _); cbn [TemporalBinner.ss_stops TemporalBinner.total_counts].
        -- apply Qle_bool_iff in E1. rewrite length_app, Nat.add_1_r, injn_S.
           setoid_replace ((inject_Z (Z.of_nat (length (TemporalBinner.ss_stops s))) + 1) * mc + 0)%Q
             with (X + mc)%Q by (unfold X; ring).
           lra.
        -- fold X. lra.
      * fold X. lra.
Qed.

(** [bin_by_significance] closes at most [len(arrival_times) / min_counts]
    bins: the number of bins times [min_counts] never exceeds the number of
    arrival times, since every bin needs [min_counts] new events. *)
Theorem bin_by_significance_count sig bg bge sl mc ts ss tb :
  TemporalBinner.bin_by_significance sig bg bge sl mc (TemporalBinner.mk ts ss) = Ok tb ->
  exists starts stops, TemporalBinner.starts_stops tb = Some (starts, stops)
    /\ (inject_Z (Z.of_nat (length stops)) * mc <= inject_Z (Z.of_nat (length ts)))%Q.
Proof.
  unfold TemporalBinner.bin_by_significance. cbn [TemporalBinner.arrival_times].
  destruct ts as [|t0 rest]; [discriminate|]. intros H. injection H as <-.
  destruct (sig_loop_count sig bg bge sl mc (t0 :: rest) (TemporalBinner.mkSState [] [] 0%Q t0) 0
              (Qle_refl 0)) as [H0 H1].
  { cbn [TemporalBinner.ss_stops TemporalBinner.total_counts length].
    change (inject_Z (Z.of_nat 0)) with 0%Q. lra. }
  do 2 eexists. split; [reflexivity|]. rewrite Nat.add_0_l in H1.
  set (Y := (inject_Z (Z.of_nat (length _)) * mc)%Q) in *. lra.
Qed.


(** The constant-width bins are contiguous: there are as many stops as
    starts, and each bin stops where the next one starts. *)
Theorem bin_by_constanst_contiguous ts ss dt tb :
  TemporalBinner.bin_by_constanst (TemporalBinner.mk ts ss) dt = Ok tb ->
  exists starts stops, TemporalBinner.starts_stops tb = Some (starts, stops)
    /\ length stops = length starts
    /\ forall i, S i < length starts -> (nth i stops 0 == nth (S i) starts 0)%Q.
Proof.
  unfold TemporalBinner.bin_by_constanst, TemporalBinner.arange.
  cbn [TemporalBinner.arrival_times].
  destruct ts as [|t0 rest]; [discriminate|].
  destruct (Qeq_bool dt 0); [discriminate|]. intros H. injection H as <-.
  do 2 eexists. split; [reflexivity|]. split; [apply length_map|].
  intros i Hi. rewrite length_map, length_seq in Hi.
  rewrite (nth_map_lt _ _ _ 0%Q) by (rewrite length_map, length_seq; lia).
  rewrite !(nth_map_lt _ _ _ 0) by (rewrite length_seq; lia).
  rewrite !seq_nth by lia. cbn [plus]. rewrite injn_S. ring.
Qed.

(** ** Witnesses of the further properties *)

Lemma get_new_start_and_stop_values_witness :
  exists r, Rebinner.init [1;1;1;1]%Q 2 None = Ok r
  /\ Rebinner.get_new_start_and_stop r [0;1;2;3]%Q [1;2;3;4]%Q
     = Ok (map (fun s => nth s [0;1;2;3]%Q 0%Q) (Rebinner.r_starts r),
           map (fun e => nth (e - 1) [1;2;3;4]%Q 0%Q) (Rebinner.r_stops r)).
Proof.
  eexists. split; [vm_compute; reflexivity|].
  apply (get_new_start_and_stop_values [1;1;1;1]%Q 2 None);
    [vm_compute; reflexivity|reflexivity|reflexivity].
Defined.


Lemma get_new_start_and_stop_identity_witness :
  exists r, Rebinner.init [1;1;1;1]%Q 2 None = Ok r
  /\ (let idx := map (fun j => inject_Z (Z.of_nat j)) (seq 0 (length [1;1;1;1]%Q)) in
      Rebinner.get_new_start_and_stop r idx idx
      = Ok (map (fun s => inject_Z (Z.of_nat s)) (Rebinner.r_starts r),
            map (fun e => inject_Z (Z.of_nat (e - 1))) (Rebinner.r_stops r))).
Proof.
  eexists. split; [vm_compute; reflexivity|].
  apply (get_new_start_and_stop_identity [1;1;1;1]%Q 2 None). vm_compute. reflexivity.
Defined.

Lemma get_new_start_and_stop_ordered_witness :
  exists r ns nt, Rebinner.init [1;1;1;1]%Q 2 None = Ok r
  /\ Rebinner.get_new_start_and_stop r [0;1;2;3]%Q [1;2;3;4]%Q = Ok (ns, nt)
  /\ (forall i, i < Rebinner.n_bins r -> Qle (nth i ns 0%Q) (nth i nt 0%Q))
  /\ (forall i, S i < Rebinner.n_bins r -> Qle (nth i nt 0%Q) (nth (S i) ns 0%Q)).
Proof.
  do 3 eexists. split; [vm_compute; reflexivity|]. split; [vm_compute; reflexivity|].
  apply (get_new_start_and_stop_ordered [1;1;1;1]%Q 2 None _ [0;1;2;3]%Q [1;2;3;4]%Q);
    [vm_compute; reflexivity|reflexivity|reflexivity| | | |vm_compute; reflexivity].
  - intros j k H. destruct j as [|[|[|[|j]]]], k as [|[|[|[|k]]]]; cbn in H; try lia;
      vm_compute; intros Hc; discriminate Hc.
  - intros j H. destruct j as [|[|[|[|j]]]]; cbn in H; try lia;
      vm_compute; intros Hc; discriminate Hc.
  - intros j H. destruct j as [|[|[|[|j]]]]; cbn in H; try lia;
      vm_compute; intros Hc; discriminate Hc.
Defined.

Lemma rebin_succeeds_iff_witness :
  exists r, Rebinner.init [1;1;1]%Q 2 None = Ok r
  /\ ((exists outs, Rebinner.rebin r [[3;4;5]%Q] = Ok outs)
      <-> Forall (fun x => length x = length [1;1;1]%Q
                  /\ ~ (qsum (mask_select x (effective_mask None (length [1;1;1]%Q))) == 0)%Q)
                 [[3;4;5]%Q])
  /\ (forall e, Rebinner.rebin r [[3;4;5]%Q] = Err e -> e = AssertionError).
Proof.
  eexists. split; [vm_compute; reflexivity|].
  apply (rebin_succeeds_iff [1;1;1]%Q 2 None). vm_compute. reflexivity.
Defined.

Lemma rebin_outputs_witness :
  exists r outs, Rebinner.init [1;1;1]%Q 2 None = Ok r
  /\ Rebinner.rebin r [[3;4;5]%Q; [1;0;1]%Q] = Ok outs
  /\ Forall2 (fun x o => length o = Rebinner.n_bins r
                         /\ (qsum o == qsum (mask_select x (effective_mask None (length [1;1;1]%Q))))%Q)
             [[3;4;5]%Q; [1;0;1]%Q] outs.
Proof.
  do 2 eexists. split; [vm_compute; reflexivity|]. split; [vm_compute; reflexivity|].
  apply (rebin_outputs [1;1;1]%Q 2 None); vm_compute; reflexivity.
Defined.


Lemma rebin_errors_squared_witness :
  exists r e, Rebinner.init [1;1;1]%Q 2 None = Ok r
  /\ Rebinner.rebin_errors r [[3;0;4]%Q] = Ok [e]
  /\ 0 < length (Rebinner.bins r)
  /\ (nth 0 e 0 * nth 0 e 0)%R
     = Q2R (nth 0 (Rebinner.rebinned r (map (fun a => a * a)%Q [3;0;4]%Q)) 0%Q).
Proof.
  do 2 eexists. split; [vm_compute; reflexivity|]. split; [reflexivity|].
  split; [vm_compute; lia|].
  apply rebin_errors_squared; [reflexivity|vm_compute; lia].
Defined.

Lemma n_bins_le_length_witness :
  exists r, Rebinner.init [1;1;1]%Q 2 None = Ok r /\ Rebinner.n_bins r <= length [1;1;1]%Q.
Proof.
  eexists. split; [vm_compute; reflexivity|].
  apply (n_bins_le_length [1;1;1]%Q 2 None). vm_compute. reflexivity.
Defined.

Lemma n_bins_zero_iff_witness :
  exists r, Rebinner.init [1;1;1]%Q 2 (Some [false; false; false]) = Ok r
  /\ (Rebinner.n_bins r = 0
      <-> (forall j, j < length [1;1;1]%Q ->
             nth j (effective_mask (Some [false; false; false]) (length [1;1;1]%Q)) false = false)).
Proof.
  eexists. split; [vm_compute; reflexivity|].
  apply (n_bins_zero_iff [1;1;1]%Q 2 (Some [false; false; false])). vm_compute. reflexivity.
Defined.

Lemma no_mask_bins_tile_witness :
  exists r, Rebinner.init [1;1;1;1;1]%Q 2 None = Ok r
  /\ 0 < length [1;1;1;1;1]%Q
  /\ (let starts := Rebinner.r_starts r in
      let stops := Rebinner.r_stops r in
      let nb := Rebinner.n_bins r in
      0 < nb /\ nth 0 starts 0 = 0 /\ nth (nb - 1) stops 0 = length [1;1;1;1;1]%Q
      /\ (forall i, S i < nb -> nth i stops 0 = nth (S i) starts 0)).
Proof.
  eexists. split; [vm_compute; reflexivity|]. split; [simpl; lia|].
  apply (no_mask_bins_tile [1;1;1;1;1]%Q 2); [vm_compute; reflexivity|simpl; lia].
Defined.


Lemma init_succeeds_witness :
  (2 <= qsum [1;1;1]%Q)%Q
  /\ (forall msk, Some [true; false; true] = Some msk -> length msk = length [1;1;1]%Q)
  /\ exists r, Rebinner.init [1;1;1]%Q 2 (Some [true; false; true]) = Ok r.
Proof.
  assert (H1 : (2 <= qsum [1;1;1]%Q)%Q) by (apply Qle_bool_iff; vm_compute; reflexivity).
  assert (H2 : forall msk, Some [true; false; true] = Some msk -> length msk = length [1;1;1]%Q)
    by (intros msk H; injection H as <-; reflexivity).
  split; [exact H1|]. split; [exact H2|].
  apply init_succeeds; [exact H1|exact H2].
Defined.

Lemma bin_by_significance_contiguous_witness :
  exists tb,
  TemporalBinner.bin_by_significance
    (TemporalBinner.mkSignificance (fun n b => n - b)%Q (fun n b e => n - b)%Q)
    (fun _ _ => 0%Q) None 2 1 (TemporalBinner.mk [0;1;2;3;4]%Q None) = Ok tb
  /\ exists starts stops cs, TemporalBinner.starts_stops tb = Some (starts, stops)
    /\ starts ++ [cs] = hd 0%Q [0;1;2;3;4]%Q :: stops
    /\ Forall (fun x => In x [0;1;2;3;4]%Q) stops.
Proof.
  eexists. split; [vm_compute; reflexivity|].
  apply (bin_by_significance_contiguous
    (TemporalBinner.mkSignificance (fun n b => n - b)%Q (fun n b e => n - b)%Q)
    (fun _ _ => 0%Q) None 2 1 [0;1;2;3;4]%Q None).
  vm_compute. reflexivity.
Defined.

Lemma bin_by_significance_count_witness :
  exists tb,
  TemporalBinner.bin_by_significance
    (TemporalBinner.mkSignificance (fun n b => n - b)%Q (fun n b e => n - b)%Q)
    (fun _ _ => 0%Q) None 2 1 (TemporalBinner.mk [0;1;2;3;4]%Q None) = Ok tb
  /\ exists starts stops, TemporalBinner.starts_stops tb = Some (starts, stops)
    /\ (inject_Z (Z.of_nat (length stops)) * 1 <= inject_Z (Z.of_nat (length [0;1;2;3;4]%Q)))%Q.
Proof.
  eexists. split; [vm_compute; reflexivity|].
  apply (bin_by_significance_count
    (TemporalBinner.mkSignificance (fun n b => n - b)%Q (fun n b e => n - b)%Q)
    (fun _ _ => 0%Q) None 2 1 [0;1;2;3;4]%Q None).
  vm_compute. reflexivity.
Defined.

Lemma bin_by_constanst_contiguous_witness :
  exists tb, TemporalBinner.bin_by_constanst (TemporalBinner.mk [0;1;5;9]%Q None) 2 = Ok tb
  /\ exists starts stops, TemporalBinner.starts_stops tb = Some (starts, stops)
    /\ length stops = length starts
    /\ forall i, S i < length starts -> (nth i stops 0 == nth (S i) starts 0)%Q.
Proof.
  eexists. split; [vm_compute; reflexivity|].
  apply (bin_by_constanst_contiguous [0;1;5;9]%Q None 2).
  vm_compute. reflexivity.
Defined.
